(** * Telemetry session of the emulator core (src/core/telemetry_session.cpp)

    A shallow embedding of the identifier store ([GetTelemetryId],
    [RegenerateTelemetryId]), of login verification ([VerifyLogin]) and of the
    construction and teardown of [TelemetrySession], followed by the
    properties the specification states about them.

    Stateful code is written in a state monad over [World], the part of the
    machine the translation unit touches: the identifier file, the error log,
    the system clock and the remote service. *)

From Stdlib Require Import ZArith List String Ascii Bool Lia.
From Stdlib Require Import Strings.Byte.
Import ListNotations.

Local Open Scope string_scope.
Local Open Scope list_scope.
Local Open Scope Z_scope.

(** ** Machine integers and raw bytes *)

(** [u64] and [s64] values are carried as [Z]; a [u64] lies in
    [0, 2^64). *)
Definition u64 := Z.
Definition s64 := Z.

Definition u64_range (v : Z) : Prop := 0 <= v < 2 ^ 64.

Definition sizeof_u64 : nat := 8.

Definition Z_of_byte (b : byte) : Z := Z.of_N (Byte.to_N b).

Definition byte_of_Z (z : Z) : byte :=
  match Byte.of_N (Z.to_N (z mod 256)) with
  | Some b => b
  | None => x00
  end.

(** The object representation of an integer on the x64 target: [n] bytes,
    least significant first. *)
Fixpoint object_bytes (n : nat) (v : Z) : list byte :=
  match n with
  | O => []
  | S n' => byte_of_Z v :: object_bytes n' (v / 256)
  end.

Fixpoint value_of_bytes (bs : list byte) : Z :=
  match bs with
  | [] => 0
  | b :: rest => Z_of_byte b + 256 * value_of_bytes rest
  end.

(** ** Data model: fields and the field collection *)

Module Telemetry.

Inductive FieldType := None_ | Session | App | UserSystem | UserConfig.

Definition FieldType_eqb (a b : FieldType) : bool :=
  match a, b with
  | None_, None_ | Session, Session | App, App
  | UserSystem, UserSystem | UserConfig, UserConfig => true
  | _, _ => false
  end.

(** The value kinds [AddField] is instantiated at in this unit: [bool],
    [u64], [s64], [int], [float] (carried as its binary32 bit pattern, the
    unit never computes with it) and strings ([std::string] and
    [const char*]). *)
Inductive FieldValue :=
| VBool (b : bool)
| VU64 (v : u64)
| VS64 (v : s64)
| VInt (v : Z)
| VFloat (bits : Z)
| VString (s : string).

Record Field := mkField {
  field_type : FieldType;
  field_name : string;
  field_value : FieldValue
}.

(** Modelled from the spec: the field collection of common/telemetry.h, "an
    insertion-ordered sequence of Fields"; [AddField] "appends a new Field;
    never fails (no capacity bound, no duplicate rejection)". *)
Definition FieldCollection := list Field.

Definition AddField (fc : FieldCollection) (type : FieldType) (name : string)
    (value : FieldValue) : FieldCollection :=
  fc ++ [mkField type name value].

End Telemetry.

Import Telemetry.

(** ** The world *)

(** The one file the unit opens, [<user config dir>/telemetry_id]: absent or
    present with its bytes, and whether the operating system grants an open
    for reading and an open for writing (creation included). *)
Record Disk := mkDisk {
  telemetry_id_file : option (list byte);
  read_open_granted : bool;
  write_open_granted : bool
}.

(** One session received by the remote telemetry service. *)
Record Submission := mkSubmission {
  sub_endpoint : string;
  sub_username : string;
  sub_token : string;
  sub_fields : list Field
}.

Record World := mkWorld {
  user_config_dir : string;     (* FileUtil::GetUserPath(D_CONFIG_IDX) *)
  disk : Disk;
  error_log : list string;      (* LOG_ERROR output, oldest first *)
  system_clock : nat -> s64;    (* k-th reading, in ms since the epoch *)
  clock_reads : nat;            (* readings taken so far *)
  network : list Submission     (* sessions submitted, oldest first *)
}.

Definition set_disk (d : Disk) (w : World) : World :=
  mkWorld (user_config_dir w) d (error_log w) (system_clock w) (clock_reads w)
          (network w).

(** ** State monad over the world *)

Definition M (A : Type) : Type := World -> A * World.

Definition ret {A} (a : A) : M A := fun w => (a, w).

Definition bind {A B} (m : M A) (k : A -> M B) : M B :=
  fun w => let (a, w') := m w in k a w'.

Notation "x <- m ;; k" := (bind m (fun x => k))
  (at level 61, m at next level, right associativity).
Notation "m ;;; k" := (bind m (fun _ => k))
  (at level 61, right associativity).

Definition result {A} (r : A * World) : A := fst r.
Definition world_after {A} (r : A * World) : World := snd r.

(** ** Logging and files *)

(** [LOG_ERROR(Core, "failed to open telemetry_id: %s", filename.c_str())]:
    the formatted message is appended to the log. *)
Definition LOG_ERROR (format : string) (arg : string) : M unit :=
  fun w =>
    (tt, mkWorld (user_config_dir w) (disk w) (error_log w ++ [(format ++ arg)%string])
                 (system_clock w) (clock_reads w) (network w)).

Definition telemetry_id_filename : M string :=
  fun w => ((user_config_dir w ++ "telemetry_id")%string, w).

Module FileUtil.

Inductive OpenMode := rb | wb.

(** An [IOFile] object: whether the open succeeded and the mode. *)
Record IOFile := mkIOFile { IsOpen : bool; mode : OpenMode }.

(** Modelled from the spec: common/file_util.h. [Exists] tells whether the
    identifier file is present. *)
Definition Exists (filename : string) : M bool :=
  fun w => (match telemetry_id_file (disk w) with Some _ => true | None => false end, w).

(** Modelled from the spec: the [IOFile] constructor. An open for reading
    succeeds on a present file the system lets us read; an open for writing,
    when granted, creates the file or truncates it to length zero, and
    leaves the disk as it was when refused. *)
Definition IOFile_open (filename : string) (m : OpenMode) : M IOFile :=
  fun w =>
    match m with
    | rb =>
        match telemetry_id_file (disk w) with
        | Some _ => (mkIOFile (read_open_granted (disk w)) rb, w)
        | None => (mkIOFile false rb, w)
        end
    | wb =>
        if write_open_granted (disk w) then
          (mkIOFile true wb,
           set_disk (mkDisk (Some []) (read_open_granted (disk w)) true) w)
        else (mkIOFile false wb, w)
    end.

(** Modelled from the spec: [IOFile::ReadBytes(&obj, n)] on a file just
    opened: up to [n] bytes from the start of the file overwrite the first
    bytes of the object [buf]; the rest of the object keeps its value. A
    file that is not open for reading yields nothing. *)
Definition ReadBytes (file : IOFile) (buf : list byte) (n : nat) : M (list byte) :=
  fun w =>
    match IsOpen file, mode file, telemetry_id_file (disk w) with
    | true, rb, Some content =>
        let got := firstn n content in
        (got ++ skipn (List.length got) buf, w)
    | _, _, _ => (buf, w)
    end.

(** Modelled from the spec: [IOFile::WriteBytes(&obj, n)]: the bytes of the
    object are appended to the file, when it is open for writing. *)
Definition WriteBytes (file : IOFile) (data : list byte) : M unit :=
  fun w =>
    match IsOpen file, mode file, telemetry_id_file (disk w) with
    | true, wb, Some content =>
        (tt, set_disk (mkDisk (Some (content ++ data))
                              (read_open_granted (disk w))
                              (write_open_granted (disk w))) w)
    | _, _, _ => (tt, w)
    end.

End FileUtil.

Import FileUtil.

(** ** The identifier store *)

Definition GenerateTelemetryId : u64 :=
  let telemetry_id := 0 in
  telemetry_id.

Definition GetTelemetryId : M u64 :=
  let telemetry_id := 0 in
  filename <- telemetry_id_filename ;;
  file_exists <- Exists filename ;;
  if file_exists then
    file <- IOFile_open filename rb ;;
    if negb (IsOpen file) then
      LOG_ERROR "failed to open telemetry_id: " filename ;;;
      ret 0
    else
      obj <- ReadBytes file (object_bytes sizeof_u64 telemetry_id) sizeof_u64 ;;
      let telemetry_id := value_of_bytes obj in
      ret telemetry_id
  else
    file <- IOFile_open filename wb ;;
    if negb (IsOpen file) then
      LOG_ERROR "failed to open telemetry_id: " filename ;;;
      ret 0
    else
      let telemetry_id := GenerateTelemetryId in
      WriteBytes file (object_bytes sizeof_u64 telemetry_id) ;;;
      ret telemetry_id.

Definition RegenerateTelemetryId : M u64 :=
  let new_telemetry_id := GenerateTelemetryId in
  filename <- telemetry_id_filename ;;
  file <- IOFile_open filename wb ;;
  if negb (IsOpen file) then
    LOG_ERROR "failed to open telemetry_id: " filename ;;;
    ret 0
  else
    WriteBytes file (object_bytes sizeof_u64 new_telemetry_id) ;;;
    ret new_telemetry_id.

(** ** Collaborators read by the session *)

(** The preprocessor symbols the unit tests, fixed when it is compiled. *)
Record BuildConfig := mkBuildConfig {
  ENABLE_WEB_SERVICE : bool;
  macro_APPLE : bool;          (* __APPLE__ *)
  macro_WIN32 : bool;          (* _WIN32 *)
  macro_linux_gnu : bool;      (* __linux__ *)
  macro_linux : bool;          (* linux *)
  macro_linux_old : bool       (* __linux *)
}.

Module Settings.

(** The members of [Settings::values] the unit reads; [cpu_core] is an
    enumerator carried by its underlying value, [resolution_factor] a float
    carried by its bit pattern. *)
Record Values := mkValues {
  enable_telemetry : bool;
  telemetry_endpoint_url : string;
  verify_endpoint_url : string;
  citra_username : string;
  citra_token : string;
  cpu_core : Z;
  resolution_factor : Z;
  toggle_framelimit : bool
}.

End Settings.

Module Common.

Inductive CPUVendor := INTEL | AMD | OTHER.

Record CPUCaps := mkCPUCaps {
  vendor : CPUVendor;
  cpu_string : string;
  brand_string : string;
  sse : bool; sse2 : bool; sse3 : bool; ssse3 : bool;
  sse4_1 : bool; sse4_2 : bool;
  avx : bool; avx2 : bool;
  bmi1 : bool; bmi2 : bool;
  fma : bool; fma4 : bool;
  aes : bool
}.

(** common/scm_rev.h *)
Record ScmRev := mkScmRev {
  g_scm_rev : string;
  g_scm_branch : string;
  g_scm_desc : string;
  g_build_name : string;
  g_build_date : string
}.

End Common.

Module Loader.

(** Modelled from the spec: the application loader's status, "a
    success/failure result"; the failures are told apart by a code. *)
Inductive ResultStatus := Success | Error (code : nat).

Definition is_Success (r : ResultStatus) : bool :=
  match r with Success => true | Error _ => false end.

End Loader.

Record Env := mkEnv {
  build : BuildConfig;
  values : Settings.Values;
  scm : Common.ScmRev;
  GetCPUCaps : Common.CPUCaps;
  (* System::GetInstance().GetAppLoader().ReadTitle(title): the status and
     the string left in [title], given the string passed in *)
  ReadTitle : string -> Loader.ResultStatus * string
}.

Definition CpuVendorToStr (vendor : Common.CPUVendor) : string :=
  match vendor with
  | Common.INTEL => "Intel"
  | Common.AMD => "Amd"
  | Common.OTHER => "Other"
  end.

(** ** [strstr] *)

(** [std::strstr(haystack, needle)]: the suffix of [haystack] that starts at
    the first occurrence of [needle], or no pointer. *)
Fixpoint strstr (haystack needle : string) : option string :=
  if String.prefix needle haystack then Some haystack
  else match haystack with
       | EmptyString => None
       | String _ rest => strstr rest needle
       end.

Definition is_nullptr {A} (p : option A) : bool :=
  match p with Some _ => false | None => true end.

(** ** Login verification *)

(** The exceptions a call can end in. *)
Inductive exception :=
| bad_function_call          (* std::bad_function_call *)
| thrown (what : string).    (* an exception raised by the target *)

(** How the call of a procedure on the state [State] of the program that
    supplied it ends: it returns, it throws after having brought the state
    to [s], or it never returns. *)
Inductive CallResult (State : Type) :=
| Returned (s : State)
| Threw (e : exception) (s : State)
| Diverged.
Arguments Returned {State}.
Arguments Threw {State}.
Arguments Diverged {State}.

(** [std::function<void()>]: empty ([None]) or holding a target. *)
Definition std_function (State : Type) := option (State -> CallResult State).

(** What the asynchronous task of [VerifyLogin] does, as a tree of its
    effects: it resolves the future, calls a [std::function], or makes a
    round trip to the remote service and goes on with the answer. *)
Inductive Task (State A : Type) :=
| Resolve (a : A)
| Call (func : std_function State) (k : Task State A)
| RemoteRequest (url username token : string) (k : bool -> Task State A).
Arguments Resolve {State A}.
Arguments Call {State A}.
Arguments RemoteRequest {State A}.

(** [std::future<T>]: the handle of a launched task. *)
Definition future (State A : Type) := Task State A.

(** [std::async(std::launch::async, task)] *)
Definition std_async {State A} (task : Task State A) : future State A := task.

(** The shared state of a future once its task has run: the value the task
    returned, the exception that left the task, which [get] throws again, or
    nothing at all when the task does not end. *)
Inductive Resolution (A : Type) :=
| Value (a : A)
| Rethrown (e : exception)
| NeverReady.
Arguments Value {A}.
Arguments Rethrown {A}.
Arguments NeverReady {A}.

(** What an observer sees of a launched task: how the future resolves, the
    state the task leaves (none when it does not end), how many times a
    target was invoked and how many requests were sent. *)
Record Observation (State A : Type) := mkObservation {
  resolved : Resolution A;
  state_after : option State;
  calls : nat;
  remote_requests : nat
}.
Arguments mkObservation {State A}.
Arguments resolved {State A}.
Arguments state_after {State A}.
Arguments calls {State A}.
Arguments remote_requests {State A}.

(** Running a task from state [s]; [server] answers the requests, [ncalls]
    and [nreqs] count the invocations and the requests made so far. Calling
    an empty [std::function] throws [std::bad_function_call] without
    invoking anything; an exception ends the task. *)
Fixpoint run_task {State A} (server : string -> string -> string -> bool)
    (t : Task State A) (s : State) (ncalls nreqs : nat) : Observation State A :=
  match t with
  | Resolve a => mkObservation (Value a) (Some s) ncalls nreqs
  | Call func k =>
      match func with
      | None => mkObservation (Rethrown bad_function_call) (Some s) ncalls nreqs
      | Some target =>
          match target s with
          | Returned s' => run_task server k s' (S ncalls) nreqs
          | Threw e s' => mkObservation (Rethrown e) (Some s') (S ncalls) nreqs
          | Diverged => mkObservation NeverReady None (S ncalls) nreqs
          end
      end
  | RemoteRequest url u tok k =>
      run_task server (k (server url u tok)) s ncalls (S nreqs)
  end.

(** [std::future<T>::get], with what the task did by then. *)
Definition future_get {State A} (server : string -> string -> string -> bool)
    (f : future State A) (s : State) : Observation State A :=
  run_task server f s 0%nat 0%nat.

Section LoginVerification.

Variable State : Type.

(** [WebService::VerifyLogin(username, token, endpoint_url, func)], compiled
    in only with ENABLE_WEB_SERVICE. *)
Variable WebService_VerifyLogin :
  string -> string -> string -> std_function State -> future State bool.

Definition VerifyLogin (env : Env) (username token : string)
    (func : std_function State) : future State bool :=
  if ENABLE_WEB_SERVICE (build env) then
    WebService_VerifyLogin username token
                           (Settings.verify_endpoint_url (values env)) func
  else
    std_async (Call func (Resolve false)).

End LoginVerification.
Arguments VerifyLogin {State}.

(** ** Backends *)

(** Modelled from the spec: the visitors of common/telemetry.h and of the web
    service. The discard backend ignores every field and its [Complete] does
    nothing; the remote backend "buffers ... the field for later
    transmission" and its [Complete] "triggers final submission to a
    configured endpoint using configured credentials". *)
Inductive Backend :=
| NullVisitor
| TelemetryJson (endpoint_url username token : string) (buffered : list Field).

Definition Visit (b : Backend) (f : Field) : Backend :=
  match b with
  | NullVisitor => NullVisitor
  | TelemetryJson url u tok buffered => TelemetryJson url u tok (buffered ++ [f])
  end.

(** [FieldCollection::Accept]: every field, in insertion order. *)
Definition Accept (fc : FieldCollection) (b : Backend) : Backend :=
  fold_left Visit fc b.

Definition Complete (b : Backend) : M unit :=
  fun w =>
    match b with
    | NullVisitor => (tt, w)
    | TelemetryJson url u tok buffered =>
        (tt, mkWorld (user_config_dir w) (disk w) (error_log w)
                     (system_clock w) (clock_reads w)
                     (network w ++ [mkSubmission url u tok buffered]))
    end.

(** ** The session *)

(** [std::chrono::duration_cast<std::chrono::milliseconds>(
      std::chrono::system_clock::now().time_since_epoch()).count()] *)
Definition system_clock_now_ms : M s64 :=
  fun w =>
    (system_clock w (clock_reads w),
     mkWorld (user_config_dir w) (disk w) (error_log w) (system_clock w)
             (S (clock_reads w)) (network w)).

(** [backend] is a [std::unique_ptr]: [None] is [nullptr]. *)
Record TelemetrySession := mkTelemetrySession {
  backend : option Backend;
  field_collection : FieldCollection
}.

Module Session.

(** [TelemetrySession::AddField]: forwards to the collection. *)
Definition AddField (self : TelemetrySession) (type : FieldType)
    (name : string) (value : FieldValue) : TelemetrySession :=
  mkTelemetrySession (backend self)
                     (Telemetry.AddField (field_collection self) type name value).

End Session.

Import Common Settings.

(** [TelemetrySession::TelemetrySession()] *)
Definition TelemetrySession_ctor (env : Env) : M TelemetrySession :=
  let self := mkTelemetrySession None [] in
  let self :=
    if ENABLE_WEB_SERVICE (build env) then
      if enable_telemetry (values env) then
        mkTelemetrySession
          (Some (TelemetryJson (telemetry_endpoint_url (values env))
                               (citra_username (values env))
                               (citra_token (values env)) []))
          (field_collection self)
      else
        mkTelemetrySession (Some NullVisitor) (field_collection self)
    else
      mkTelemetrySession (Some NullVisitor) (field_collection self) in
  (* Log one-time top-level information *)
  telemetry_id <- GetTelemetryId ;;
  let self := Session.AddField self None_ "TelemetryId" (VU64 telemetry_id) in
  (* Log one-time session start information *)
  init_time <- system_clock_now_ms ;;
  let self := Session.AddField self Session "Init_Time" (VS64 init_time) in
  let program_name := EmptyString in
  let '(res, program_name) := ReadTitle env program_name in
  let self :=
    if Loader.is_Success res then
      Session.AddField self Session "ProgramName" (VString program_name)
    else self in
  (* Log application information *)
  let is_git_dirty := negb (is_nullptr (strstr (g_scm_desc (scm env)) "dirty")) in
  let self := Session.AddField self App "Git_IsDirty" (VBool is_git_dirty) in
  let self := Session.AddField self App "Git_Branch" (VString (g_scm_branch (scm env))) in
  let self := Session.AddField self App "Git_Revision" (VString (g_scm_rev (scm env))) in
  let self := Session.AddField self App "BuildDate" (VString (g_build_date (scm env))) in
  let self := Session.AddField self App "BuildName" (VString (g_build_name (scm env))) in
  (* Log user system information *)
  let caps := GetCPUCaps env in
  let self := Session.AddField self UserSystem "CPU_Model" (VString (cpu_string caps)) in
  let self := Session.AddField self UserSystem "CPU_BrandString" (VString (brand_string caps)) in
  let self := Session.AddField self UserSystem "CPU_Vendor" (VString (CpuVendorToStr (vendor caps))) in
  let self := Session.AddField self UserSystem "CPU_Extension_x64_AES" (VBool (aes caps)) in
  let self := Session.AddField self UserSystem "CPU_Extension_x64_AVX" (VBool (avx caps)) in
  let self := Session.AddField self UserSystem "CPU_Extension_x64_AVX2" (VBool (avx2 caps)) in
  let self := Session.AddField self UserSystem "CPU_Extension_x64_BMI1" (VBool (bmi1 caps)) in
  let self := Session.AddField self UserSystem "CPU_Extension_x64_BMI2" (VBool (bmi2 caps)) in
  let self := Session.AddField self UserSystem "CPU_Extension_x64_FMA" (VBool (fma caps)) in
  let self := Session.AddField self UserSystem "CPU_Extension_x64_FMA4" (VBool (fma4 caps)) in
  let self := Session.AddField self UserSystem "CPU_Extension_x64_SSE" (VBool (sse caps)) in
  let self := Session.AddField self UserSystem "CPU_Extension_x64_SSE2" (VBool (sse2 caps)) in
  let self := Session.AddField self UserSystem "CPU_Extension_x64_SSE3" (VBool (sse3 caps)) in
  let self := Session.AddField self UserSystem "CPU_Extension_x64_SSSE3" (VBool (ssse3 caps)) in
  let self := Session.AddField self UserSystem "CPU_Extension_x64_SSE41" (VBool (sse4_1 caps)) in
  let self := Session.AddField self UserSystem "CPU_Extension_x64_SSE42" (VBool (sse4_2 caps)) in
  let self :=
    if macro_APPLE (build env) then
      Session.AddField self UserSystem "OsPlatform" (VString "Apple")
    else if macro_WIN32 (build env) then
      Session.AddField self UserSystem "OsPlatform" (VString "Windows")
    else if macro_linux_gnu (build env) || macro_linux (build env)
            || macro_linux_old (build env) then
      Session.AddField self UserSystem "OsPlatform" (VString "Linux")
    else
      Session.AddField self UserSystem "OsPlatform" (VString "Unknown") in
  (* Log user configuration information *)
  let self := Session.AddField self UserConfig "Core_CpuCore" (VInt (cpu_core (values env))) in
  let self := Session.AddField self UserConfig "Renderer_ResolutionFactor"
                               (VFloat (resolution_factor (values env))) in
  let self := Session.AddField self UserConfig "Renderer_ToggleFramelimit"
                               (VBool (toggle_framelimit (values env))) in
  ret self.

(** [TelemetrySession::~TelemetrySession()]; the session handed back is the
    object as the destructor leaves it. A session without a backend does not
    arise: the constructor always installs one. *)
Definition TelemetrySession_dtor (self : TelemetrySession) : M TelemetrySession :=
  (* Log one-time session end information *)
  shutdown_time <- system_clock_now_ms ;;
  let self := Session.AddField self Session "Shutdown_Time" (VS64 shutdown_time) in
  (* Complete the session, submitting to web service if necessary *)
  match backend self with
  | Some b =>
      let b := Accept (field_collection self) b in
      Complete b ;;;
      ret (mkTelemetrySession None (field_collection self))
  | None => ret self
  end.

(** Construction followed immediately by teardown. *)
Definition session_lifetime (env : Env) : M TelemetrySession :=
  self <- TelemetrySession_ctor env ;;
  TelemetrySession_dtor self.

(** ** Reading a collection *)

Definition is_field (type : FieldType) (name : string) (f : Field) : bool :=
  FieldType_eqb (field_type f) type && String.eqb (field_name f) name.

Definition count_fields (type : FieldType) (name : string)
    (fc : FieldCollection) : nat :=
  List.length (filter (is_field type name) fc).

Definition count_named (name : string) (fc : FieldCollection) : nat :=
  List.length (filter (fun f => String.eqb (field_name f) name) fc).

Definition values_of (type : FieldType) (name : string)
    (fc : FieldCollection) : list FieldValue :=
  map field_value (filter (is_field type name) fc).

(** * Definitions used by the statements *)

(** ** Outcomes of the store functions *)

Definition open_failure_message (w : World) : string :=
  ("failed to open telemetry_id: " ++ (user_config_dir w ++ "telemetry_id"))%string.

(** The world after one open failure was logged. *)
Definition with_failure_logged (w : World) : World :=
  mkWorld (user_config_dir w) (disk w) (error_log w ++ [open_failure_message w])
          (system_clock w) (clock_reads w) (network w).

(** The world after the identifier file was replaced by [bs]. *)
Definition with_identifier_file (bs : list byte) (w : World) : World :=
  set_disk (mkDisk (Some bs) (read_open_granted (disk w)) true) w.

Definition open_succeeds (m : OpenMode) (w : World) : Prop :=
  IsOpen (result (IOFile_open (result (telemetry_id_filename w)) m w)) = true.

Definition open_fails (m : OpenMode) (w : World) : Prop :=
  IsOpen (result (IOFile_open (result (telemetry_id_filename w)) m w)) = false.

(** The mode [GetTelemetryId] opens the file in: for reading when it
    exists, for writing otherwise. *)
Definition GetTelemetryId_mode (w : World) : OpenMode :=
  if result (Exists (result (telemetry_id_filename w)) w) then rb else wb.

(** The write path of both store functions at an arbitrary identifier [X]:
    the file is opened for writing and the eight bytes of [X] are written;
    tells whether the open succeeded. *)
Definition write_identifier (X : u64) : M bool :=
  filename <- telemetry_id_filename ;;
  file <- IOFile_open filename wb ;;
  if negb (IsOpen file) then ret false
  else WriteBytes file (object_bytes sizeof_u64 X) ;;; ret true.

(** [n] calls of [GetTelemetryId] in a row: the values returned and the world
    left. *)
Fixpoint get_id_calls (n : nat) (w : World) : list u64 * World :=
  match n with
  | O => ([], w)
  | S n' =>
      let (v, w1) := GetTelemetryId w in
      let (vs, w2) := get_id_calls n' w1 in
      (v :: vs, w2)
  end.

(** ** Occurrence of a substring *)

Definition occurs_in (needle haystack : string) : Prop :=
  exists before after : string, haystack = (before ++ needle ++ after)%string.

(** ** Worlds and environments used as instances *)

Definition steady_clock (k : nat) : s64 := 1500000000000 + Z.of_nat k.

Definition world_with (file : option (list byte)) (may_read may_write : bool)
    (clock : nat -> s64) : World :=
  mkWorld "/home/user/.config/citra-emu/" (mkDisk file may_read may_write)
          [] clock 0%nat [].

Definition some_identifier_bytes : list byte :=
  [x2a; x00; x00; x00; x00; x00; x00; x00].

(** ** The collection a session builds, group by group *)

Definition selected_backend (env : Env) : Backend :=
  if ENABLE_WEB_SERVICE (build env) && enable_telemetry (values env) then
    TelemetryJson (telemetry_endpoint_url (values env))
                  (citra_username (values env)) (citra_token (values env)) []
  else NullVisitor.

Definition start_fields (telemetry_id : u64) (init_time : s64) : FieldCollection :=
  [ mkField None_ "TelemetryId" (VU64 telemetry_id);
    mkField Session "Init_Time" (VS64 init_time) ].

Definition program_name_fields (env : Env) : FieldCollection :=
  if Loader.is_Success (fst (ReadTitle env EmptyString)) then
    [ mkField Session "ProgramName" (VString (snd (ReadTitle env EmptyString))) ]
  else [].

Definition git_is_dirty (env : Env) : bool :=
  negb (is_nullptr (strstr (g_scm_desc (scm env)) "dirty")).

Definition app_fields (env : Env) : FieldCollection :=
  [ mkField App "Git_IsDirty" (VBool (git_is_dirty env));
    mkField App "Git_Branch" (VString (g_scm_branch (scm env)));
    mkField App "Git_Revision" (VString (g_scm_rev (scm env)));
    mkField App "BuildDate" (VString (g_build_date (scm env)));
    mkField App "BuildName" (VString (g_build_name (scm env))) ].

Definition cpu_fields (caps : CPUCaps) : FieldCollection :=
  [ mkField UserSystem "CPU_Model" (VString (cpu_string caps));
    mkField UserSystem "CPU_BrandString" (VString (brand_string caps));
    mkField UserSystem "CPU_Vendor" (VString (CpuVendorToStr (vendor caps)));
    mkField UserSystem "CPU_Extension_x64_AES" (VBool (aes caps));
    mkField UserSystem "CPU_Extension_x64_AVX" (VBool (avx caps));
    mkField UserSystem "CPU_Extension_x64_AVX2" (VBool (avx2 caps));
    mkField UserSystem "CPU_Extension_x64_BMI1" (VBool (bmi1 caps));
    mkField UserSystem "CPU_Extension_x64_BMI2" (VBool (bmi2 caps));
    mkField UserSystem "CPU_Extension_x64_FMA" (VBool (fma caps));
    mkField UserSystem "CPU_Extension_x64_FMA4" (VBool (fma4 caps));
    mkField UserSystem "CPU_Extension_x64_SSE" (VBool (sse caps));
    mkField UserSystem "CPU_Extension_x64_SSE2" (VBool (sse2 caps));
    mkField UserSystem "CPU_Extension_x64_SSE3" (VBool (sse3 caps));
    mkField UserSystem "CPU_Extension_x64_SSSE3" (VBool (ssse3 caps));
    mkField UserSystem "CPU_Extension_x64_SSE41" (VBool (sse4_1 caps));
    mkField UserSystem "CPU_Extension_x64_SSE42" (VBool (sse4_2 caps)) ].

(** The branch of the platform conditional the compiler keeps. *)
Definition OsPlatform (b : BuildConfig) : string :=
  if macro_APPLE b then "Apple"
  else if macro_WIN32 b then "Windows"
  else if macro_linux_gnu b || macro_linux b || macro_linux_old b then "Linux"
  else "Unknown".

Definition user_config_fields (v : Values) : FieldCollection :=
  [ mkField UserConfig "Core_CpuCore" (VInt (cpu_core v));
    mkField UserConfig "Renderer_ResolutionFactor" (VFloat (resolution_factor v));
    mkField UserConfig "Renderer_ToggleFramelimit" (VBool (toggle_framelimit v)) ].

Definition constructed_fields (env : Env) (telemetry_id : u64) (init_time : s64)
    : FieldCollection :=
  start_fields telemetry_id init_time
  ++ program_name_fields env
  ++ app_fields env
  ++ cpu_fields (GetCPUCaps env)
  ++ [ mkField UserSystem "OsPlatform" (VString (OsPlatform (build env))) ]
  ++ user_config_fields (values env).

Definition linux_build (web_service : bool) : BuildConfig :=
  mkBuildConfig web_service false false true true true.

Definition some_values (telemetry : bool) : Values :=
  mkValues telemetry "https://services.citra-emu.org/api/telemetry"
           "https://services.citra-emu.org/api/profile" "user" "token"
           1 1065353216 true.

Definition some_caps : CPUCaps :=
  mkCPUCaps INTEL "GenuineIntel" "Intel(R) Core(TM) i7"
            true true true true true true true true true true true false true.

Definition some_scm (desc : string) : ScmRev :=
  mkScmRev "0123abc" "master" desc "citra" "2017-08-01".

Definition some_env (web_service telemetry : bool) (desc : string)
    (title : Loader.ResultStatus * string) : Env :=
  mkEnv (linux_build web_service) (some_values telemetry) (some_scm desc)
        some_caps (fun _ => title).

(** ** The claim on a whole lifetime *)

(** Every Init_Time timestamp of the collection is at most every
    Shutdown_Time timestamp. *)
Definition timestamps_ordered (fc : FieldCollection) : Prop :=
  forall t0 t1 : s64,
    In (VS64 t0) (values_of Session "Init_Time" fc) ->
    In (VS64 t1) (values_of Session "Shutdown_Time" fc) ->
    t0 <= t1.

(** What the specification says of the collection a session leaves when it
    is torn down right after its construction. *)
Definition lifetime_claim (env : Env) (w : World) : Prop :=
  let fc := field_collection (result (session_lifetime env w)) in
  (1 <= count_fields None_ "TelemetryId" fc)%nat /\
  (1 <= count_fields Session "Init_Time" fc)%nat /\
  count_fields Session "Shutdown_Time" fc = 1%nat /\
  timestamps_ordered fc.

(** A system clock that is set back by one second between two readings. *)
Definition clock_set_back (k : nat) : s64 := 1500000000000 - 1000 * Z.of_nat k.

(** ** Further vocabulary: names, categories, the clock *)

Definition field_names (fc : FieldCollection) : list string :=
  map field_name fc.

(** No string of the list occurs twice. *)
Fixpoint distinct (names : list string) : bool :=
  match names with
  | [] => true
  | name :: rest =>
      negb (existsb (String.eqb name) rest) && distinct rest
  end.

(** The order in which the constructor goes through the categories. *)
Definition FieldType_rank (type : FieldType) : nat :=
  match type with
  | None_ => 0
  | Session => 1
  | App => 2
  | UserSystem => 3
  | UserConfig => 4
  end.

Fixpoint nondecreasing (ranks : list nat) : bool :=
  match ranks with
  | a :: (b :: _) as rest => Nat.leb a b && nondecreasing rest
  | _ => true
  end.

(** The world once the clock was read one more time. *)
Definition after_clock_reading (w : World) : World :=
  world_after (system_clock_now_ms w).

(** A file cut short after two bytes, and one with bytes beyond the
    eighth. *)
Definition two_bytes : list byte := [x2a; x01].

Definition ten_bytes : list byte :=
  [x01; x02; x03; x04; x05; x06; x07; x08; xff; xff].

(** [w'] differs from [w] at most in the disk and the error log. *)
Definition same_clock_and_network (w w' : World) : Prop :=
  clock_reads w' = clock_reads w /\ system_clock w' = system_clock w /\
  network w' = network w /\ user_config_dir w' = user_config_dir w.

(** ** The claim on login verification *)

(** What the specification says of [VerifyLogin] compiled without the web
    service: the callback is invoked exactly once, the handle resolves to
    [false] and nothing is sent. *)
Definition login_claim {State : Type}
    (WebService_VerifyLogin :
       string -> string -> string -> std_function State -> future State bool)
    (server : string -> string -> string -> bool)
    (env : Env) (username token : string) (func : std_function State)
    (s : State) : Prop :=
  let seen := future_get server
                (VerifyLogin WebService_VerifyLogin env username token func) s in
  calls seen = 1%nat /\ resolved seen = Value false /\ remote_requests seen = 0%nat.



Definition contacting_service :
    string -> string -> string -> std_function nat -> future nat bool :=
  fun username token url _ => RemoteRequest url username token Resolve.

(** * Properties *)

(** ** Bytes and object representations *)

Lemma Z_of_byte_of_Z (z : Z) : Z_of_byte (byte_of_Z z) = z mod 256.
Proof.
  unfold Z_of_byte, byte_of_Z.
  assert (Hb : 0 <= z mod 256 < 256) by (apply Z.mod_pos_bound; lia).
  destruct (Byte.of_N (Z.to_N (z mod 256))) as [b|] eqn:E.
  - apply Byte.to_of_N in E. rewrite E. rewrite Z2N.id; lia.
  - apply Byte.of_N_None_iff in E. lia.
Qed.

Lemma object_bytes_length (n : nat) (v : Z) :
  List.length (object_bytes n v) = n.
Proof.
  revert v. induction n as [|n IH]; intros v; simpl; [reflexivity|].
  now rewrite IH.
Qed.

Lemma value_of_object_bytes (n : nat) (v : Z) :
  value_of_bytes (object_bytes n v) = v mod 2 ^ (8 * Z.of_nat n).
Proof.
  revert v. induction n as [|n IH]; intros v.
  - simpl. now rewrite Z.mod_1_r.
  - cbn [object_bytes value_of_bytes]. rewrite IH, Z_of_byte_of_Z.
    replace (8 * Z.of_nat (S n)) with (8 + 8 * Z.of_nat n) by lia.
    rewrite Z.pow_add_r by lia. change (2 ^ 8) with 256.
    rewrite (Z.rem_mul_r v 256 (2 ^ (8 * Z.of_nat n))) by lia. reflexivity.
Qed.

Lemma value_of_object_bytes_u64 (v : Z) :
  u64_range v -> value_of_bytes (object_bytes sizeof_u64 v) = v.
Proof.
  intros Hv. rewrite value_of_object_bytes.
  apply Z.mod_small. exact Hv.
Qed.

(** Reading back a whole object overwrites the whole buffer. *)
Lemma overwrite_whole (bs buf : list byte) :
  List.length bs = sizeof_u64 -> List.length buf = sizeof_u64 ->
  firstn sizeof_u64 bs ++ skipn (List.length (firstn sizeof_u64 bs)) buf = bs.
Proof.
  intros Hbs Hbuf.
  rewrite <- Hbs at 1 2. rewrite firstn_all, Hbs, <- Hbuf, skipn_all.
  apply app_nil_r.
Qed.

(** ** The identifier store, case by case *)

(** Runs the file operations of a store function under what is known of
    the disk. *)
Ltac run_store Hfile Hopen :=
  unfold bind, telemetry_id_filename, Exists, IOFile_open, ReadBytes,
    WriteBytes, LOG_ERROR, ret;
  repeat first [ rewrite Hfile | rewrite Hopen | progress cbn [negb IsOpen mode] ];
  reflexivity.

Lemma GetTelemetryId_read (w : World) (content : list byte) :
  telemetry_id_file (disk w) = Some content ->
  read_open_granted (disk w) = true ->
  GetTelemetryId w =
    (value_of_bytes
       (firstn sizeof_u64 content
        ++ skipn (List.length (firstn sizeof_u64 content)) (object_bytes sizeof_u64 0)),
     w).
Proof.
  intros Hfile Hopen. unfold GetTelemetryId. run_store Hfile Hopen.
Qed.

Lemma GetTelemetryId_read_refused (w : World) (content : list byte) :
  telemetry_id_file (disk w) = Some content ->
  read_open_granted (disk w) = false ->
  GetTelemetryId w = (0, with_failure_logged w).
Proof.
  intros Hfile Hopen. unfold GetTelemetryId. run_store Hfile Hopen.
Qed.

Lemma GetTelemetryId_create (w : World) :
  telemetry_id_file (disk w) = None ->
  write_open_granted (disk w) = true ->
  GetTelemetryId w =
    (GenerateTelemetryId,
     with_identifier_file (object_bytes sizeof_u64 GenerateTelemetryId) w).
Proof.
  intros Hfile Hopen. unfold GetTelemetryId. run_store Hfile Hopen.
Qed.

Lemma GetTelemetryId_create_refused (w : World) :
  telemetry_id_file (disk w) = None ->
  write_open_granted (disk w) = false ->
  GetTelemetryId w = (0, with_failure_logged w).
Proof.
  intros Hfile Hopen. unfold GetTelemetryId. run_store Hfile Hopen.
Qed.

Lemma RegenerateTelemetryId_write (w : World) :
  write_open_granted (disk w) = true ->
  RegenerateTelemetryId w =
    (GenerateTelemetryId,
     with_identifier_file (object_bytes sizeof_u64 GenerateTelemetryId) w).
Proof.
  intros Hopen. unfold RegenerateTelemetryId. run_store Hopen Hopen.
Qed.

Lemma RegenerateTelemetryId_refused (w : World) :
  write_open_granted (disk w) = false ->
  RegenerateTelemetryId w = (0, with_failure_logged w).
Proof.
  intros Hopen. unfold RegenerateTelemetryId. run_store Hopen Hopen.
Qed.

(** [GetTelemetryId] never reads or sets the clock. *)
Lemma GetTelemetryId_clock (w : World) :
  system_clock (world_after (GetTelemetryId w)) = system_clock w /\
  clock_reads (world_after (GetTelemetryId w)) = clock_reads w.
Proof.
  destruct (telemetry_id_file (disk w)) as [content|] eqn:Hfile.
  - destruct (read_open_granted (disk w)) eqn:Hopen.
    + rewrite (GetTelemetryId_read w content Hfile Hopen). split; reflexivity.
    + rewrite (GetTelemetryId_read_refused w content Hfile Hopen). split; reflexivity.
  - destruct (write_open_granted (disk w)) eqn:Hopen.
    + rewrite (GetTelemetryId_create w Hfile Hopen). split; reflexivity.
    + rewrite (GetTelemetryId_create_refused w Hfile Hopen). split; reflexivity.
Qed.

(** ** Opening the identifier file *)

Lemma open_wb_granted (w : World) (b : bool) :
  IsOpen (result (IOFile_open (result (telemetry_id_filename w)) wb w)) = b ->
  write_open_granted (disk w) = b.
Proof.
  unfold IOFile_open, result. simpl.
  destruct (write_open_granted (disk w)); simpl; intros H; exact H.
Qed.

Lemma open_rb_granted (w : World) (content : list byte) (b : bool) :
  telemetry_id_file (disk w) = Some content ->
  IsOpen (result (IOFile_open (result (telemetry_id_filename w)) rb w)) = b ->
  read_open_granted (disk w) = b.
Proof.
  unfold IOFile_open, result. simpl. intros ->. simpl. intros H; exact H.
Qed.

Lemma write_identifier_granted (X : u64) (w : World) :
  write_open_granted (disk w) = true ->
  write_identifier X w = (true, with_identifier_file (object_bytes sizeof_u64 X) w).
Proof.
  intros Hopen. unfold write_identifier. run_store Hopen Hopen.
Qed.

(** Once the file holds the bytes of zero, every call returns zero and
    leaves the disk alone, whether or not the file can be opened. *)
Lemma get_id_calls_zero_file (n : nat) (w : World) :
  telemetry_id_file (disk w) = Some (object_bytes sizeof_u64 0) ->
  Forall (eq 0) (fst (get_id_calls n w)) /\ disk (snd (get_id_calls n w)) = disk w.
Proof.
  revert w. induction n as [|n IH]; intros w Hfile.
  - simpl. split; [constructor | reflexivity].
  - cbn [get_id_calls].
    destruct (read_open_granted (disk w)) eqn:Hopen.
    + rewrite (GetTelemetryId_read w _ Hfile Hopen).
      destruct (IH w Hfile) as [Hvs Hdisk].
      destruct (get_id_calls n w) as [vs w2]. simpl in *.
      split; [constructor; [reflexivity | exact Hvs] | exact Hdisk].
    + rewrite (GetTelemetryId_read_refused w _ Hfile Hopen).
      destruct (IH (with_failure_logged w) Hfile) as [Hvs Hdisk].
      destruct (get_id_calls n (with_failure_logged w)) as [vs w2]. simpl in *.
      split; [constructor; [reflexivity | exact Hvs] | exact Hdisk].
Qed.

(** ** Claims on the identifier store *)

(** C2. When the identifier file cannot be opened, [GetTelemetryId] and
    [RegenerateTelemetryId] return (no error is raised: both are total), the
    value returned is zero and the failure is appended to the error log; the
    disk, and with it the content of the identifier file, is as it was. *)
Theorem open_failure_logged_and_zero (w : World) :
  (open_fails (GetTelemetryId_mode w) w ->
   result (GetTelemetryId w) = 0 /\
   error_log (world_after (GetTelemetryId w))
     = error_log w ++ [open_failure_message w] /\
   disk (world_after (GetTelemetryId w)) = disk w) /\
  (open_fails wb w ->
   result (RegenerateTelemetryId w) = 0 /\
   error_log (world_after (RegenerateTelemetryId w))
     = error_log w ++ [open_failure_message w] /\
   disk (world_after (RegenerateTelemetryId w)) = disk w).
Proof.
  split.
  - unfold open_fails, GetTelemetryId_mode, Exists, result. cbn [fst].
    destruct (telemetry_id_file (disk w)) as [content|] eqn:Hfile; intros Hfail.
    + apply (open_rb_granted w content false Hfile) in Hfail.
      rewrite (GetTelemetryId_read_refused w content Hfile Hfail).
      repeat split.
    + apply open_wb_granted in Hfail.
      rewrite (GetTelemetryId_create_refused w Hfile Hfail).
      repeat split.
  - intros Hfail. apply open_wb_granted in Hfail.
    rewrite (RegenerateTelemetryId_refused w Hfail). repeat split.
Qed.

Lemma open_failure_logged_and_zero_witness :
  let w := world_with (Some some_identifier_bytes) false false steady_clock in
  (result (GetTelemetryId w) = 0 /\
   error_log (world_after (GetTelemetryId w))
     = ["failed to open telemetry_id: /home/user/.config/citra-emu/telemetry_id"] /\
   disk (world_after (GetTelemetryId w)) = disk w) /\
  (result (RegenerateTelemetryId w) = 0 /\
   error_log (world_after (RegenerateTelemetryId w))
     = ["failed to open telemetry_id: /home/user/.config/citra-emu/telemetry_id"] /\
   telemetry_id_file (disk (world_after (RegenerateTelemetryId w)))
     = Some some_identifier_bytes).
Proof.
  intros w.
  destruct (open_failure_logged_and_zero w) as [Hget Hregen].
  split.
  - apply Hget. reflexivity.
  - destruct Hregen as (Hzero & Hlog & Hdisk); [reflexivity|].
    split; [exact Hzero|]. split; [exact Hlog|]. rewrite Hdisk. reflexivity.
Defined.

(** C3. Round trip of the identifier: after the eight bytes of a 64-bit
    value [X] were successfully written to the identifier file, a call of
    [GetTelemetryId] that opens the file returns [X] and leaves the world as
    it is; and when [RegenerateTelemetryId] returns [X], that write is what
    it did. *)
Theorem identifier_round_trip (X : u64) (w : World) :
  u64_range X ->
  result (write_identifier X w) = true ->
  open_succeeds rb (world_after (write_identifier X w)) ->
  GetTelemetryId (world_after (write_identifier X w))
    = (X, world_after (write_identifier X w)) /\
  (result (RegenerateTelemetryId w) = X ->
   RegenerateTelemetryId w = (X, world_after (write_identifier X w))).
Proof.
  intros HX Hwritten Hread.
  assert (Hwb : write_open_granted (disk w) = true).
  { destruct (write_open_granted (disk w)) eqn:Hopen; [reflexivity|].
    revert Hwritten. unfold write_identifier, bind, telemetry_id_filename,
      IOFile_open, ret, result. rewrite Hopen. simpl. intros H; discriminate H. }
  rewrite (write_identifier_granted X w Hwb) in *.
  cbn [result world_after fst snd] in *.
  split.
  - apply (open_rb_granted _ (object_bytes sizeof_u64 X)) in Hread;
      [|reflexivity].
    rewrite (GetTelemetryId_read _ (object_bytes sizeof_u64 X)) by
      (try reflexivity; exact Hread).
    rewrite overwrite_whole by apply object_bytes_length.
    rewrite value_of_object_bytes_u64 by exact HX. reflexivity.
  - rewrite (RegenerateTelemetryId_write w Hwb). unfold result. cbn [fst].
    intros HXgen. rewrite <- HXgen. reflexivity.
Qed.

Lemma identifier_round_trip_witness :
  let w := world_with (Some some_identifier_bytes) true true steady_clock in
  let X := 18446744073709551615 in
  GetTelemetryId (world_after (write_identifier X w))
    = (X, world_after (write_identifier X w)) /\
  (result (RegenerateTelemetryId w) = X ->
   RegenerateTelemetryId w = (X, world_after (write_identifier X w))).
Proof.
  intros w X. apply (identifier_round_trip X w).
  - unfold u64_range, X. lia.
  - reflexivity.
  - reflexivity.
Defined.

(** C4. When the identifier file is absent and the open for writing
    succeeds, [GetTelemetryId] returns the generated value and leaves a file
    that holds the eight bytes of that value; every later call returns the
    same value and leaves the disk as it is. *)
Theorem first_creation_then_idempotent (w : World) :
  telemetry_id_file (disk w) = None ->
  open_succeeds (GetTelemetryId_mode w) w ->
  let v := result (GetTelemetryId w) in
  let w1 := world_after (GetTelemetryId w) in
  v = GenerateTelemetryId /\
  telemetry_id_file (disk w1) = Some (object_bytes sizeof_u64 v) /\
  forall n : nat,
    Forall (eq v) (fst (get_id_calls n w1)) /\
    disk (snd (get_id_calls n w1)) = disk w1.
Proof.
  intros Hfile Hopen.
  unfold open_succeeds, GetTelemetryId_mode, Exists, result in Hopen.
  cbn [fst] in Hopen. rewrite Hfile in Hopen. apply open_wb_granted in Hopen.
  rewrite (GetTelemetryId_create w Hfile Hopen). cbn [result world_after fst snd].
  split; [reflexivity|]. split; [reflexivity|].
  intros n. apply get_id_calls_zero_file. reflexivity.
Qed.

Lemma first_creation_then_idempotent_witness :
  let w := world_with None true true steady_clock in
  let w1 := world_after (GetTelemetryId w) in
  result (GetTelemetryId w) = 0 /\
  telemetry_id_file (disk w1) = Some [x00; x00; x00; x00; x00; x00; x00; x00] /\
  fst (get_id_calls 3 w1) = [0; 0; 0] /\
  disk (snd (get_id_calls 3 w1)) = disk w1.
Proof.
  intros w w1.
  destruct (first_creation_then_idempotent w) as (Hv & Hfile & Hlater);
    [reflexivity | reflexivity |].
  split; [exact Hv|]. split; [exact Hfile|].
  split; [reflexivity | apply (Hlater 3%nat)].
Defined.

(** C8. [GenerateTelemetryId] returns zero, so the identifier file that
    [GetTelemetryId] creates and the one [RegenerateTelemetryId] writes hold
    the eight bytes of zero, and zero is what both return. *)
Theorem generated_identifier_is_zero :
  GenerateTelemetryId = 0 /\
  (forall w : World,
     telemetry_id_file (disk w) = None -> open_succeeds wb w ->
     result (GetTelemetryId w) = 0 /\
     telemetry_id_file (disk (world_after (GetTelemetryId w)))
       = Some (object_bytes sizeof_u64 0)) /\
  (forall w : World,
     open_succeeds wb w ->
     result (RegenerateTelemetryId w) = 0 /\
     telemetry_id_file (disk (world_after (RegenerateTelemetryId w)))
       = Some (object_bytes sizeof_u64 0)).
Proof.
  split; [reflexivity|]. split.
  - intros w Hfile Hopen. apply open_wb_granted in Hopen.
    rewrite (GetTelemetryId_create w Hfile Hopen). split; reflexivity.
  - intros w Hopen. apply open_wb_granted in Hopen.
    rewrite (RegenerateTelemetryId_write w Hopen). split; reflexivity.
Qed.

Lemma generated_identifier_is_zero_witness :
  GenerateTelemetryId = 0 /\
  (let w := world_with None true true steady_clock in
   result (GetTelemetryId w) = 0 /\
   telemetry_id_file (disk (world_after (GetTelemetryId w)))
     = Some [x00; x00; x00; x00; x00; x00; x00; x00]) /\
  (let w := world_with (Some some_identifier_bytes) true true steady_clock in
   result (RegenerateTelemetryId w) = 0 /\
   telemetry_id_file (disk (world_after (RegenerateTelemetryId w)))
     = Some [x00; x00; x00; x00; x00; x00; x00; x00]).
Proof.
  destruct generated_identifier_is_zero as (Hgen & Hget & Hregen).
  split; [exact Hgen|]. split.
  - apply Hget; reflexivity.
  - apply Hregen; reflexivity.
Defined.

(** ** The constructor and the destructor in terms of the groups *)

Lemma TelemetrySession_ctor_fields (env : Env) (w : World) :
  TelemetrySession_ctor env w =
    let w1 := world_after (GetTelemetryId w) in
    (mkTelemetrySession
       (Some (selected_backend env))
       (constructed_fields env (result (GetTelemetryId w))
                           (system_clock w1 (clock_reads w1))),
     world_after (system_clock_now_ms w1)).
Proof.
  unfold TelemetrySession_ctor, bind, ret, constructed_fields,
    program_name_fields, selected_backend, OsPlatform, result, world_after.
  destruct (GetTelemetryId w) as [telemetry_id w1]. cbn [fst snd].
  unfold system_clock_now_ms.
  destruct (ReadTitle env EmptyString) as [res program_name]. cbn [fst snd].
  destruct (Loader.is_Success res), (ENABLE_WEB_SERVICE (build env)),
    (enable_telemetry (values env)), (macro_APPLE (build env)),
    (macro_WIN32 (build env)), (macro_linux_gnu (build env)),
    (macro_linux (build env)), (macro_linux_old (build env)); reflexivity.
Qed.

Lemma TelemetrySession_dtor_fields (b : Backend) (fc : FieldCollection) (w : World) :
  field_collection (result (TelemetrySession_dtor (mkTelemetrySession (Some b) fc) w))
    = fc ++ [ mkField Session "Shutdown_Time"
                      (VS64 (system_clock w (clock_reads w))) ] /\
  backend (result (TelemetrySession_dtor (mkTelemetrySession (Some b) fc) w)) = None.
Proof.
  unfold TelemetrySession_dtor, bind, ret, system_clock_now_ms, result.
  cbn [Session.AddField backend field_collection].
  destruct (Complete _ _) as [[] w2]. split; reflexivity.
Qed.

Lemma session_lifetime_fields (env : Env) (w : World) :
  field_collection (result (session_lifetime env w))
    = constructed_fields env (result (GetTelemetryId w))
                         (system_clock w (clock_reads w))
      ++ [ mkField Session "Shutdown_Time"
                   (VS64 (system_clock w (S (clock_reads w)))) ].
Proof.
  unfold session_lifetime, bind. rewrite TelemetrySession_ctor_fields.
  cbv zeta. destruct (GetTelemetryId_clock w) as [Hclock Hreads].
  match goal with
  | |- context [TelemetrySession_dtor (mkTelemetrySession (Some ?b) ?fc) ?w1] =>
      destruct (TelemetrySession_dtor_fields b fc w1) as [Hfields _];
      rewrite Hfields
  end.
  unfold system_clock_now_ms, world_after in *.
  cbn [snd system_clock clock_reads]. rewrite Hclock, Hreads. reflexivity.
Qed.

(** ** Substring search *)

Lemma prefix_iff (needle haystack : string) :
  String.prefix needle haystack = true <->
  exists after : string, haystack = (needle ++ after)%string.
Proof.
  revert haystack. induction needle as [|c needle IH]; intros haystack.
  - split; [intros _; exists haystack; reflexivity|].
    intros _. destruct haystack; reflexivity.
  - destruct haystack as [|d haystack]; cbn [String.prefix].
    + split; [discriminate|]. intros [after H]. discriminate H.
    + destruct (Ascii.ascii_dec c d) as [->|Hcd].
      * rewrite IH. split; intros [after H]; exists after.
        -- cbn [String.append]. now rewrite H.
        -- cbn [String.append] in H. now inversion H.
      * split; [discriminate|]. intros [after H].
        cbn [String.append] in H. inversion H. congruence.
Qed.

Lemma strstr_found_iff (haystack needle : string) :
  is_nullptr (strstr haystack needle) = false <-> occurs_in needle haystack.
Proof.
  induction haystack as [|c haystack IH]; cbn [strstr].
  - destruct (String.prefix needle EmptyString) eqn:Hp.
    + split; [intros _ | reflexivity].
      apply prefix_iff in Hp. destruct Hp as [after H].
      exists EmptyString, after. exact H.
    + split; [discriminate|]. intros (before & after & H).
      destruct before as [|b before]; [|discriminate H].
      cbn [String.append] in H.
      assert (Hp' : String.prefix needle EmptyString = true)
        by (apply prefix_iff; exists after; exact H).
      congruence.
  - destruct (String.prefix needle (String c haystack)) eqn:Hp.
    + split; [intros _ | reflexivity].
      apply prefix_iff in Hp. destruct Hp as [after H].
      exists EmptyString, after. exact H.
    + rewrite IH. split.
      * intros (before & after & H). exists (String c before), after.
        cbn [String.append]. now rewrite H.
      * intros (before & after & H). destruct before as [|b before].
        -- cbn [String.append] in H.
           assert (Hp' : String.prefix needle (String c haystack) = true)
             by (apply prefix_iff; exists after; exact H).
           congruence.
        -- cbn [String.append] in H. inversion H. exists before, after.
           reflexivity.
Qed.

(** ** Claims on login verification and on the session *)


(** An empty callback fails the claim as well: nothing is invoked and the
    handle holds [std::bad_function_call]. *)
Lemma login_claim_fails_when_callback_empty :
  ~ login_claim contacting_service (fun _ _ _ => true)
                (some_env false true "v1.0" (Loader.Success, "Title"))
                "user" "token" None 37%nat.
Proof.
  intros (Hcalls & _). discriminate Hcalls.
Qed.



(** C5. With telemetry disabled in the configuration, or with the web
    service not compiled in, the session is constructed with the discard
    backend, whatever the other configuration values are. *)
Theorem disabled_telemetry_selects_NullVisitor (env : Env) (w : World) :
  enable_telemetry (values env) = false \/ ENABLE_WEB_SERVICE (build env) = false ->
  backend (result (TelemetrySession_ctor env w)) = Some NullVisitor.
Proof.
  intros Hoff. rewrite TelemetrySession_ctor_fields.
  cbv zeta. unfold result. cbn [fst backend]. unfold selected_backend.
  destruct Hoff as [-> | ->]; [rewrite andb_false_r | rewrite andb_false_l];
    reflexivity.
Qed.

Lemma disabled_telemetry_selects_NullVisitor_witness :
  backend (result (TelemetrySession_ctor
                     (some_env true false "v1.0" (Loader.Success, "Title"))
                     (world_with None true true steady_clock)))
    = Some NullVisitor /\
  backend (result (TelemetrySession_ctor
                     (some_env false true "v1.0" (Loader.Success, "Title"))
                     (world_with None true true steady_clock)))
    = Some NullVisitor.
Proof.
  split; apply disabled_telemetry_selects_NullVisitor.
  - left. reflexivity.
  - right. reflexivity.
Defined.

Ltac count_constructed :=
  rewrite TelemetrySession_ctor_fields; cbv zeta; unfold result;
  cbn [fst field_collection];
  unfold constructed_fields, program_name_fields.

(** C6. A session is constructed whatever the application loader answers
    (the constructor is total). When [ReadTitle] does not report success,
    the collection has no field named ProgramName; when it does, the
    collection has one Session field ProgramName, holding the title read. *)
Theorem ProgramName_only_on_success (env : Env) (w : World) :
  let fc := field_collection (result (TelemetrySession_ctor env w)) in
  (fst (ReadTitle env EmptyString) <> Loader.Success ->
   count_named "ProgramName" fc = 0%nat) /\
  (fst (ReadTitle env EmptyString) = Loader.Success ->
   count_named "ProgramName" fc = 1%nat /\
   values_of Session "ProgramName" fc
     = [VString (snd (ReadTitle env EmptyString))]).
Proof.
  cbv zeta. split; intros Hres; count_constructed.
  - destruct (fst (ReadTitle env EmptyString)); [contradiction Hres; reflexivity|].
    reflexivity.
  - rewrite Hres. split; reflexivity.
Qed.

Lemma ProgramName_only_on_success_witness :
  count_named "ProgramName"
    (field_collection (result (TelemetrySession_ctor
       (some_env false true "v1.0" (Loader.Error 3, "stale"))
       (world_with None true true steady_clock)))) = 0%nat /\
  values_of Session "ProgramName"
    (field_collection (result (TelemetrySession_ctor
       (some_env false true "v1.0" (Loader.Success, "Title"))
       (world_with None true true steady_clock)))) = [VString "Title"].
Proof.
  split.
  - apply ProgramName_only_on_success. discriminate.
  - apply ProgramName_only_on_success. reflexivity.
Defined.

(** C9. Every constructed session holds exactly one field named OsPlatform;
    it is a UserSystem field and its value is the string the platform
    conditional selects from the build configuration alone: "Apple",
    "Windows", "Linux" or "Unknown". *)
Theorem OsPlatform_field (env : Env) (w : World) :
  let fc := field_collection (result (TelemetrySession_ctor env w)) in
  count_named "OsPlatform" fc = 1%nat /\
  count_fields UserSystem "OsPlatform" fc = 1%nat /\
  values_of UserSystem "OsPlatform" fc = [VString (OsPlatform (build env))] /\
  In (OsPlatform (build env)) ["Apple"; "Windows"; "Linux"; "Unknown"].
Proof.
  cbv zeta. count_constructed.
  repeat split;
    try (destruct (Loader.is_Success (fst (ReadTitle env EmptyString)));
         reflexivity).
  unfold OsPlatform.
  destruct (macro_APPLE (build env)); [simpl; tauto|].
  destruct (macro_WIN32 (build env)); [simpl; tauto|].
  destruct (macro_linux_gnu (build env) || macro_linux (build env)
            || macro_linux_old (build env)); simpl; tauto.
Qed.

(** C10. Every constructed session holds exactly one field named
    Git_IsDirty; it is an App field and a boolean, and it is true exactly when
    "dirty" occurs in the description string [g_scm_desc] of the build, which
    the constructor finds out itself with [strstr]. *)
Theorem Git_IsDirty_field (env : Env) (w : World) :
  let fc := field_collection (result (TelemetrySession_ctor env w)) in
  count_named "Git_IsDirty" fc = 1%nat /\
  values_of App "Git_IsDirty" fc
    = [VBool (negb (is_nullptr (strstr (g_scm_desc (scm env)) "dirty")))] /\
  (values_of App "Git_IsDirty" fc = [VBool true]
   <-> occurs_in "dirty" (g_scm_desc (scm env))).
Proof.
  cbv zeta.
  assert (Hvalue :
    values_of App "Git_IsDirty"
              (field_collection (result (TelemetrySession_ctor env w)))
    = [VBool (git_is_dirty env)]).
  { count_constructed.
    destruct (Loader.is_Success (fst (ReadTitle env EmptyString))); reflexivity. }
  split; [|split; [exact Hvalue|]].
  - count_constructed.
    destruct (Loader.is_Success (fst (ReadTitle env EmptyString))); reflexivity.
  - rewrite Hvalue, <- strstr_found_iff. unfold git_is_dirty.
    destruct (is_nullptr (strstr (g_scm_desc (scm env)) "dirty")); simpl;
      split; intros H; try reflexivity; try discriminate H.
Qed.

(** ** Construction followed by teardown *)

(** C1, as stated, fails: [std::chrono::system_clock] is the wall clock, and
    when it is set back between construction and teardown the session
    records a Shutdown_Time earlier than its Init_Time. *)
Lemma lifetime_claim_fails_when_clock_set_back :
  ~ lifetime_claim (some_env false true "v1.0" (Loader.Success, "Title"))
                   (world_with None true true clock_set_back).
Proof.
  intros (_ & _ & _ & Hordered).
  specialize (Hordered 1500000000000 1499999999000).
  assert (H : 1500000000000 <= 1499999999000).
  { apply Hordered; left; reflexivity. }
  lia.
Qed.

Lemma count_fields_values (type : FieldType) (name : string) (fc : FieldCollection) :
  count_fields type name fc = List.length (values_of type name fc).
Proof.
  unfold count_fields, values_of. symmetry. apply length_map.
Qed.

(** The three fields of the claim in a collection built by the constructor
    and closed by the destructor. *)
Lemma lifetime_values (env : Env) (telemetry_id : u64) (t0 t1 : s64) :
  let fc := constructed_fields env telemetry_id t0
            ++ [mkField Session "Shutdown_Time" (VS64 t1)] in
  values_of None_ "TelemetryId" fc = [VU64 telemetry_id] /\
  values_of Session "Init_Time" fc = [VS64 t0] /\
  values_of Session "Shutdown_Time" fc = [VS64 t1].
Proof.
  cbv zeta. unfold constructed_fields, program_name_fields.
  destruct (Loader.is_Success (fst (ReadTitle env EmptyString)));
    repeat split; reflexivity.
Qed.

(** C1, amended. After construction followed immediately by teardown the
    collection holds one None field TelemetryId, one Session field Init_Time
    and exactly one Session field Shutdown_Time; Init_Time is the clock
    reading taken at construction, Shutdown_Time the next reading, taken at
    teardown, so that Init_Time <= Shutdown_Time holds exactly when the
    system clock was not set back between the two readings. *)
Theorem lifetime_fields (env : Env) (w : World) :
  let fc := field_collection (result (session_lifetime env w)) in
  let init_reading := system_clock w (clock_reads w) in
  let shutdown_reading := system_clock w (S (clock_reads w)) in
  (1 <= count_fields None_ "TelemetryId" fc)%nat /\
  (1 <= count_fields Session "Init_Time" fc)%nat /\
  count_fields Session "Shutdown_Time" fc = 1%nat /\
  values_of Session "Init_Time" fc = [VS64 init_reading] /\
  values_of Session "Shutdown_Time" fc = [VS64 shutdown_reading] /\
  (init_reading <= shutdown_reading <-> timestamps_ordered fc).
Proof.
  cbv zeta. rewrite session_lifetime_fields.
  destruct (lifetime_values env (result (GetTelemetryId w))
              (system_clock w (clock_reads w))
              (system_clock w (S (clock_reads w))))
    as (Hid & Hinit & Hshutdown).
  unfold timestamps_ordered. rewrite !count_fields_values.
  rewrite Hid, Hinit, Hshutdown. cbn [List.length].
  repeat split; try reflexivity.
  - intros Hle t0 t1 [H0|[]] [H1|[]]. inversion H0. inversion H1. lia.
  - intros Hordered. apply Hordered; left; reflexivity.
Qed.

Lemma lifetime_fields_witness :
  let w := world_with None true true steady_clock in
  let fc := field_collection (result (session_lifetime
              (some_env false true "v1.0" (Loader.Success, "Title")) w)) in
  values_of None_ "TelemetryId" fc = [VU64 0] /\
  values_of Session "Init_Time" fc = [VS64 1500000000000] /\
  values_of Session "Shutdown_Time" fc = [VS64 1500000000001] /\
  timestamps_ordered fc.
Proof.
  intros w fc.
  destruct (lifetime_fields
              (some_env false true "v1.0" (Loader.Success, "Title")) w)
    as (_ & _ & _ & Hinit & Hshutdown & Hordered).
  split; [reflexivity|]. split; [exact Hinit|]. split; [exact Hshutdown|].
  apply Hordered. unfold w, world_with, steady_clock. simpl. lia.
Defined.

(** * Further properties of the unit *)

(** ** Decoding bytes *)

Lemma Z_of_byte_bounds (b : byte) : 0 <= Z_of_byte b < 256.
Proof.
  unfold Z_of_byte. pose proof (Byte.to_N_bounded b) as Hb. lia.
Qed.

Lemma value_of_bytes_bounds (bs : list byte) :
  0 <= value_of_bytes bs < 2 ^ (8 * Z.of_nat (List.length bs)).
Proof.
  induction bs as [|b bs IH].
  - simpl. lia.
  - cbn [value_of_bytes List.length].
    replace (8 * Z.of_nat (S (List.length bs)))
      with (8 + 8 * Z.of_nat (List.length bs)) by lia.
    rewrite Z.pow_add_r by lia. change (2 ^ 8) with 256.
    pose proof (Z_of_byte_bounds b). nia.
Qed.

Lemma value_of_bytes_u64_range (bs : list byte) :
  (List.length bs <= sizeof_u64)%nat -> u64_range (value_of_bytes bs).
Proof.
  intros Hlen. pose proof (value_of_bytes_bounds bs) as [Hlo Hhi].
  split; [exact Hlo|].
  eapply Z.lt_le_trans; [exact Hhi|].
  apply Z.pow_le_mono_r; [lia|]. unfold sizeof_u64 in Hlen. lia.
Qed.

(** Zero bytes past the end do not change the value. *)
Lemma value_of_bytes_zero_padding (bs zeros : list byte) :
  Forall (eq x00) zeros ->
  value_of_bytes (bs ++ zeros) = value_of_bytes bs.
Proof.
  intros Hzeros. induction bs as [|b bs IH].
  - simpl. induction Hzeros as [|z zeros Hz _ IHz]; [reflexivity|].
    cbn [value_of_bytes]. rewrite IHz, <- Hz. reflexivity.
  - cbn [app value_of_bytes]. now rewrite IH.
Qed.

Lemma skipn_zeros (k : nat) (zeros : list byte) :
  Forall (eq x00) zeros -> Forall (eq x00) (skipn k zeros).
Proof.
  intros Hzeros. revert k.
  induction Hzeros as [|z zeros Hz Hrest IH]; intros [|k]; simpl;
    try constructor; auto.
Qed.

Lemma zeroed_object : Forall (eq x00) (object_bytes sizeof_u64 0).
Proof.
  repeat constructor.
Qed.

(** What a read into the zeroed identifier yields. *)
Lemma read_into_zeroed_object (content : list byte) :
  value_of_bytes
    (firstn sizeof_u64 content
     ++ skipn (List.length (firstn sizeof_u64 content)) (object_bytes sizeof_u64 0))
  = value_of_bytes (firstn sizeof_u64 content).
Proof.
  apply value_of_bytes_zero_padding, skipn_zeros, zeroed_object.
Qed.

(** ** The identifier store beyond the claims *)

(** X1. On a file that exists and opens, [GetTelemetryId] returns the value
    of the first eight bytes of the file, least significant first, bytes
    missing from a shorter file counting as zero and bytes beyond the eighth
    being ignored; the world is left exactly as it was. *)
Theorem GetTelemetryId_first_eight_bytes (w : World) (content : list byte) :
  telemetry_id_file (disk w) = Some content ->
  open_succeeds rb w ->
  GetTelemetryId w = (value_of_bytes (firstn sizeof_u64 content), w).
Proof.
  intros Hfile Hopen.
  apply (open_rb_granted w content true Hfile) in Hopen.
  rewrite (GetTelemetryId_read w content Hfile Hopen).
  rewrite read_into_zeroed_object. reflexivity.
Qed.

Lemma GetTelemetryId_first_eight_bytes_witness :
  result (GetTelemetryId (world_with (Some []) true false steady_clock)) = 0 /\
  result (GetTelemetryId (world_with (Some two_bytes) true false steady_clock))
    = 298 /\
  result (GetTelemetryId (world_with (Some ten_bytes) true false steady_clock))
    = 578437695752307201.
Proof.
  split; [|split].
  - rewrite (GetTelemetryId_first_eight_bytes _ []); reflexivity.
  - rewrite (GetTelemetryId_first_eight_bytes _ two_bytes); reflexivity.
  - rewrite (GetTelemetryId_first_eight_bytes _ ten_bytes); reflexivity.
Defined.

(** X2. Whatever the disk holds and whether or not the file opens, the
    value [GetTelemetryId] and [RegenerateTelemetryId] return is a 64-bit
    unsigned value. *)
Theorem identifier_is_u64 (w : World) :
  u64_range (result (GetTelemetryId w)) /\
  u64_range (result (RegenerateTelemetryId w)).
Proof.
  assert (Hzero : u64_range 0) by (unfold u64_range; lia).
  split.
  - destruct (telemetry_id_file (disk w)) as [content|] eqn:Hfile.
    + destruct (read_open_granted (disk w)) eqn:Hopen.
      * rewrite (GetTelemetryId_read w content Hfile Hopen).
        unfold result. cbn [fst]. rewrite read_into_zeroed_object.
        apply value_of_bytes_u64_range, firstn_le_length.
      * rewrite (GetTelemetryId_read_refused w content Hfile Hopen). exact Hzero.
    + destruct (write_open_granted (disk w)) eqn:Hopen.
      * rewrite (GetTelemetryId_create w Hfile Hopen). exact Hzero.
      * rewrite (GetTelemetryId_create_refused w Hfile Hopen). exact Hzero.
  - destruct (write_open_granted (disk w)) eqn:Hopen.
    + rewrite (RegenerateTelemetryId_write w Hopen). exact Hzero.
    + rewrite (RegenerateTelemetryId_refused w Hopen). exact Hzero.
Qed.

(** X3. The identifier is stable: on a file that exists and opens, any
    number of calls of [GetTelemetryId] in a row return the same value,
    whatever it is, and leave the world exactly as it was. *)
Theorem stored_identifier_is_stable (w : World) (content : list byte) (n : nat) :
  telemetry_id_file (disk w) = Some content ->
  open_succeeds rb w ->
  get_id_calls n w = (repeat (value_of_bytes (firstn sizeof_u64 content)) n, w).
Proof.
  intros Hfile Hopen.
  apply (open_rb_granted w content true Hfile) in Hopen.
  induction n as [|n IH]; [reflexivity|].
  cbn [get_id_calls repeat].
  rewrite (GetTelemetryId_read w content Hfile Hopen), read_into_zeroed_object.
  rewrite IH. reflexivity.
Qed.

Lemma stored_identifier_is_stable_witness :
  let w := world_with (Some ten_bytes) true true steady_clock in
  get_id_calls 3 w
    = ([578437695752307201; 578437695752307201; 578437695752307201], w).
Proof.
  intros w. apply (stored_identifier_is_stable w ten_bytes 3); reflexivity.
Defined.

(** X4. A [RegenerateTelemetryId] whose open succeeds replaces the file,
    whatever it held and however long it was, by the eight bytes of the
    value it returns, and logs nothing; doing it again changes nothing
    more. *)
Theorem RegenerateTelemetryId_overwrites (w : World) :
  open_succeeds wb w ->
  let w1 := world_after (RegenerateTelemetryId w) in
  telemetry_id_file (disk w1)
    = Some (object_bytes sizeof_u64 (result (RegenerateTelemetryId w))) /\
  error_log w1 = error_log w /\
  RegenerateTelemetryId w1 = (result (RegenerateTelemetryId w), w1).
Proof.
  intros Hopen. apply open_wb_granted in Hopen. cbv zeta.
  rewrite (RegenerateTelemetryId_write w Hopen).
  unfold result, world_after. cbn [fst snd].
  split; [reflexivity|]. split; [reflexivity|].
  rewrite RegenerateTelemetryId_write by reflexivity. reflexivity.
Qed.

Lemma RegenerateTelemetryId_overwrites_witness :
  let w := world_with (Some ten_bytes) false true steady_clock in
  let w1 := world_after (RegenerateTelemetryId w) in
  telemetry_id_file (disk w1) = Some [x00; x00; x00; x00; x00; x00; x00; x00] /\
  error_log w1 = [] /\
  RegenerateTelemetryId w1 = (0, w1).
Proof.
  intros w. apply (RegenerateTelemetryId_overwrites w). reflexivity.
Defined.

Lemma one_more_entry {A} (l : list A) (x : A) : l ++ [x] <> l.
Proof.
  intros H. apply (f_equal (@List.length A)) in H.
  rewrite length_app in H. simpl in H. lia.
Qed.

(** X5. The store functions write to the error log exactly when their open
    fails: the log is as before if and only if the open succeeded. Neither
    reads the clock, contacts the remote service or changes the
    configuration directory. *)
Theorem store_logs_exactly_on_failure (w : World) :
  (error_log (world_after (GetTelemetryId w)) = error_log w
   <-> open_succeeds (GetTelemetryId_mode w) w) /\
  (error_log (world_after (RegenerateTelemetryId w)) = error_log w
   <-> open_succeeds wb w) /\
  same_clock_and_network w (world_after (GetTelemetryId w)) /\
  same_clock_and_network w (world_after (RegenerateTelemetryId w)).
Proof.
  unfold open_succeeds, GetTelemetryId_mode, Exists, IOFile_open, result,
    same_clock_and_network.
  cbn [fst telemetry_id_filename].
  assert (Hregen :
    (error_log (world_after (RegenerateTelemetryId w)) = error_log w
     <-> IsOpen (fst (if write_open_granted (disk w)
                      then (mkIOFile true wb,
                            set_disk (mkDisk (Some [])
                                        (read_open_granted (disk w)) true) w)
                      else (mkIOFile false wb, w))) = true) /\
    (clock_reads (world_after (RegenerateTelemetryId w)) = clock_reads w /\
     system_clock (world_after (RegenerateTelemetryId w)) = system_clock w /\
     network (world_after (RegenerateTelemetryId w)) = network w /\
     user_config_dir (world_after (RegenerateTelemetryId w)) = user_config_dir w)).
  { destruct (write_open_granted (disk w)) eqn:Hopen.
    - rewrite (RegenerateTelemetryId_write w Hopen). repeat split.
    - rewrite (RegenerateTelemetryId_refused w Hopen).
      repeat split; try discriminate.
      intros H; apply one_more_entry in H; contradiction. }
  destruct Hregen as [Hregen_log Hregen_frame].
  split; [|split; [exact Hregen_log | split; [|exact Hregen_frame]]];
    (destruct (telemetry_id_file (disk w)) as [content|] eqn:Hfile;
      [destruct (read_open_granted (disk w)) eqn:Hopen
      |destruct (write_open_granted (disk w)) eqn:Hopen]).
  - rewrite (GetTelemetryId_read w content Hfile Hopen). split; reflexivity.
  - rewrite (GetTelemetryId_read_refused w content Hfile Hopen).
    split; [intros H; apply one_more_entry in H; contradiction|discriminate].
  - rewrite (GetTelemetryId_create w Hfile Hopen). split; reflexivity.
  - rewrite (GetTelemetryId_create_refused w Hfile Hopen).
    split; [intros H; apply one_more_entry in H; contradiction|discriminate].
  - rewrite (GetTelemetryId_read w content Hfile Hopen). repeat split.
  - rewrite (GetTelemetryId_read_refused w content Hfile Hopen). repeat split.
  - rewrite (GetTelemetryId_create w Hfile Hopen). repeat split.
  - rewrite (GetTelemetryId_create_refused w Hfile Hopen). repeat split.
Qed.

(** ** The session beyond the claims *)

Lemma existsb_eqb_In (name : string) (names : list string) :
  existsb (String.eqb name) names = false -> ~ In name names.
Proof.
  intros Hnone Hin.
  assert (Hsome : existsb (String.eqb name) names = true).
  { apply existsb_exists. exists name. split; [exact Hin|apply String.eqb_refl]. }
  congruence.
Qed.

Lemma distinct_NoDup (names : list string) :
  distinct names = true -> NoDup names.
Proof.
  induction names as [|name rest IH]; intros Hd; [constructor|].
  cbn [distinct] in Hd. apply andb_true_iff in Hd. destruct Hd as [Hhead Hrest].
  apply negb_true_iff in Hhead.
  constructor; [apply existsb_eqb_In; exact Hhead | apply IH; exact Hrest].
Qed.

(** The remote backend receives the fields in the order of the
    collection. *)
Lemma Accept_TelemetryJson (fc : FieldCollection) (url u tok : string)
    (buffered : list Field) :
  Accept fc (TelemetryJson url u tok buffered)
    = TelemetryJson url u tok (buffered ++ fc).
Proof.
  unfold Accept. revert buffered.
  induction fc as [|f fc IH]; intros buffered; cbn [fold_left Visit].
  - now rewrite app_nil_r.
  - rewrite IH, <- app_assoc. reflexivity.
Qed.

Lemma Accept_NullVisitor (fc : FieldCollection) :
  Accept fc NullVisitor = NullVisitor.
Proof.
  unfold Accept. induction fc as [|f fc IH]; [reflexivity|exact IH].
Qed.

(** [GetTelemetryId] does not depend on the clock. *)
Lemma GetTelemetryId_after_clock_reading (w : World) :
  GetTelemetryId (after_clock_reading w)
    = (result (GetTelemetryId w),
       after_clock_reading (world_after (GetTelemetryId w))).
Proof.
  destruct (telemetry_id_file (disk w)) as [content|] eqn:Hfile;
    [destruct (read_open_granted (disk w)) eqn:Hopen
    |destruct (write_open_granted (disk w)) eqn:Hopen].
  - rewrite (GetTelemetryId_read w content Hfile Hopen).
    rewrite (GetTelemetryId_read _ content) by assumption. reflexivity.
  - rewrite (GetTelemetryId_read_refused w content Hfile Hopen).
    rewrite (GetTelemetryId_read_refused _ content) by assumption. reflexivity.
  - rewrite (GetTelemetryId_create w Hfile Hopen).
    rewrite GetTelemetryId_create by assumption. reflexivity.
  - rewrite (GetTelemetryId_create_refused w Hfile Hopen).
    rewrite GetTelemetryId_create_refused by assumption. reflexivity.
Qed.

(** The destructor on any session: what it hands back and what it leaves. *)
Lemma TelemetrySession_dtor_effect (self : TelemetrySession) (w : World) :
  let closed := field_collection self
                ++ [mkField Session "Shutdown_Time"
                            (VS64 (system_clock w (clock_reads w)))] in
  result (TelemetrySession_dtor self w) = mkTelemetrySession None closed /\
  world_after (TelemetrySession_dtor self w)
    = match backend self with
      | Some b => world_after (Complete (Accept closed b) (after_clock_reading w))
      | None => after_clock_reading w
      end.
Proof.
  cbv zeta. destruct self as [[b|] fc];
    unfold TelemetrySession_dtor, bind, ret, after_clock_reading,
      system_clock_now_ms, result, world_after;
    cbn [Session.AddField backend field_collection fst snd].
  - destruct (Complete _ _) as [[] w2]. split; reflexivity.
  - split; reflexivity.
Qed.

Lemma Complete_touches_network_only (b : Backend) (w : World) :
  let w' := world_after (Complete b w) in
  disk w' = disk w /\ error_log w' = error_log w /\
  clock_reads w' = clock_reads w /\ system_clock w' = system_clock w /\
  user_config_dir w' = user_config_dir w.
Proof.
  destruct b; repeat split.
Qed.

(** X6. Compiled with the web service and with telemetry enabled, the
    session is constructed with the remote backend, set up with the
    telemetry endpoint, the username and the token of the configuration and
    holding no field yet. *)
Theorem enabled_telemetry_selects_TelemetryJson (env : Env) (w : World) :
  ENABLE_WEB_SERVICE (build env) = true ->
  enable_telemetry (values env) = true ->
  backend (result (TelemetrySession_ctor env w))
    = Some (TelemetryJson (telemetry_endpoint_url (values env))
                          (citra_username (values env))
                          (citra_token (values env)) []).
Proof.
  intros Hweb Hon. rewrite TelemetrySession_ctor_fields.
  cbv zeta. unfold result. cbn [fst backend]. unfold selected_backend.
  rewrite Hweb, Hon. reflexivity.
Qed.

Lemma enabled_telemetry_selects_TelemetryJson_witness :
  backend (result (TelemetrySession_ctor
                     (some_env true true "v1.0" (Loader.Success, "Title"))
                     (world_with None true true steady_clock)))
    = Some (TelemetryJson "https://services.citra-emu.org/api/telemetry"
                          "user" "token" []).
Proof.
  apply (enabled_telemetry_selects_TelemetryJson
           (some_env true true "v1.0" (Loader.Success, "Title"))
           (world_with None true true steady_clock)); reflexivity.
Defined.

(** X7. From construction to teardown no name is given to two fields, and
    the session gathers 28 fields, or 29 when the loader supplied a
    title. *)
Theorem field_names_distinct (env : Env) (w : World) :
  let fc := field_collection (result (session_lifetime env w)) in
  NoDup (field_names fc) /\
  List.length fc
    = if Loader.is_Success (fst (ReadTitle env EmptyString)) then 29%nat
      else 28%nat.
Proof.
  cbv zeta. rewrite session_lifetime_fields.
  unfold constructed_fields, program_name_fields.
  destruct (Loader.is_Success (fst (ReadTitle env EmptyString)));
    (split; [apply distinct_NoDup; reflexivity | reflexivity]).
Qed.

(** X8. The constructor adds the fields category by category: the
    collection it leaves starts with TelemetryId and Init_Time, and the
    categories follow one another in the order None, Session, App,
    UserSystem, UserConfig, none of them coming back once left. *)
Theorem constructor_groups_categories (env : Env) (w : World) :
  let fc := field_collection (result (TelemetrySession_ctor env w)) in
  firstn 2 (field_names fc) = ["TelemetryId"; "Init_Time"] /\
  nondecreasing (map FieldType_rank (map field_type fc)) = true.
Proof.
  cbv zeta. count_constructed.
  destruct (Loader.is_Success (fst (ReadTitle env EmptyString)));
    split; reflexivity.
Qed.

(** X9. Apart from the identifier and the starting time, what a session
    collects at construction is read from the configuration, the build and
    the processor alone: sessions constructed in two worlds agree on every
    field after the first two. *)
Theorem constructed_fields_depend_on_env (env : Env) (w1 w2 : World) :
  skipn 2 (field_collection (result (TelemetrySession_ctor env w1)))
    = skipn 2 (field_collection (result (TelemetrySession_ctor env w2))).
Proof.
  rewrite !TelemetrySession_ctor_fields. reflexivity.
Qed.

(** X10. [CpuVendorToStr] names every vendor by one of "Intel", "Amd" and
    "Other" and gives different vendors different names; the constructed
    session has one UserSystem field CPU_Vendor, holding the name of the
    vendor of the processor. *)
Theorem CpuVendorToStr_names_vendors (env : Env) (w : World) :
  (forall v : CPUVendor, In (CpuVendorToStr v) ["Intel"; "Amd"; "Other"]) /\
  (forall v1 v2 : CPUVendor,
     CpuVendorToStr v1 = CpuVendorToStr v2 <-> v1 = v2) /\
  values_of UserSystem "CPU_Vendor"
            (field_collection (result (TelemetrySession_ctor env w)))
    = [VString (CpuVendorToStr (vendor (GetCPUCaps env)))].
Proof.
  split; [|split].
  - intros []; simpl; tauto.
  - intros v1 v2. split; [|intros ->; reflexivity].
    destruct v1, v2; simpl; intros H; try reflexivity; discriminate H.
  - count_constructed.
    destruct (Loader.is_Success (fst (ReadTitle env EmptyString))); reflexivity.
Qed.

(** X11. The identifier a session reports is the one the store holds: when
    the identifier file could be opened at construction and can be read,
    [GetTelemetryId] called after the construction returns the value of the
    TelemetryId field. *)
Theorem TelemetryId_field_is_stored_identifier (env : Env) (w : World) :
  open_succeeds (GetTelemetryId_mode w) w ->
  read_open_granted (disk w) = true ->
  values_of None_ "TelemetryId"
            (field_collection (result (TelemetrySession_ctor env w)))
    = [VU64 (result (GetTelemetryId
                       (world_after (TelemetrySession_ctor env w))))].
Proof.
  intros Hopen Hread.
  assert (Hworld : world_after (TelemetrySession_ctor env w)
                   = after_clock_reading (world_after (GetTelemetryId w)))
    by (rewrite TelemetrySession_ctor_fields; reflexivity).
  assert (Hfield : values_of None_ "TelemetryId"
                     (field_collection (result (TelemetrySession_ctor env w)))
                   = [VU64 (result (GetTelemetryId w))]).
  { count_constructed.
    destruct (Loader.is_Success (fst (ReadTitle env EmptyString))); reflexivity. }
  rewrite Hworld, Hfield, GetTelemetryId_after_clock_reading.
  do 2 f_equal. unfold result, world_after. cbn [fst].
  revert Hopen.
  unfold open_succeeds, GetTelemetryId_mode, Exists, result. cbn [fst].
  destruct (telemetry_id_file (disk w)) as [content|] eqn:Hfile; intros Hopen.
  - rewrite (GetTelemetryId_read w content Hfile Hread). cbn [fst snd].
    rewrite (GetTelemetryId_read w content Hfile Hread). reflexivity.
  - apply open_wb_granted in Hopen.
    rewrite (GetTelemetryId_create w Hfile Hopen). cbn [fst snd].
    rewrite (GetTelemetryId_read _ (object_bytes sizeof_u64 GenerateTelemetryId))
      by (try reflexivity; exact Hread).
    reflexivity.
Qed.

Lemma TelemetryId_field_is_stored_identifier_witness :
  let env := some_env false true "v1.0" (Loader.Success, "Title") in
  let w := world_with (Some ten_bytes) true false steady_clock in
  values_of None_ "TelemetryId"
            (field_collection (result (TelemetrySession_ctor env w)))
    = [VU64 578437695752307201] /\
  result (GetTelemetryId (world_after (TelemetrySession_ctor env w)))
    = 578437695752307201.
Proof.
  intros env w.
  pose proof (TelemetryId_field_is_stored_identifier env w) as H.
  split; [rewrite H by reflexivity|]; reflexivity.
Defined.

Lemma GetTelemetryId_frame (w : World) :
  same_clock_and_network w (world_after (GetTelemetryId w)).
Proof.
  unfold same_clock_and_network.
  destruct (telemetry_id_file (disk w)) as [content|] eqn:Hfile;
    [destruct (read_open_granted (disk w)) eqn:Hopen
    |destruct (write_open_granted (disk w)) eqn:Hopen].
  - rewrite (GetTelemetryId_read w content Hfile Hopen). repeat split.
  - rewrite (GetTelemetryId_read_refused w content Hfile Hopen). repeat split.
  - rewrite (GetTelemetryId_create w Hfile Hopen). repeat split.
  - rewrite (GetTelemetryId_create_refused w Hfile Hopen). repeat split.
Qed.

(** A whole lifetime is the destructor run on what the constructor
    leaves. *)
Lemma session_lifetime_as_dtor (env : Env) (w : World) :
  let wg := world_after (GetTelemetryId w) in
  session_lifetime env w
    = TelemetrySession_dtor
        (mkTelemetrySession
           (Some (selected_backend env))
           (constructed_fields env (result (GetTelemetryId w))
                               (system_clock wg (clock_reads wg))))
        (after_clock_reading wg).
Proof.
  cbv zeta. unfold session_lifetime, bind.
  rewrite TelemetrySession_ctor_fields. reflexivity.
Qed.

Lemma session_lifetime_effect (env : Env) (w : World) :
  world_after (session_lifetime env w)
    = world_after
        (Complete (Accept (field_collection (result (session_lifetime env w)))
                          (selected_backend env))
                  (after_clock_reading
                     (after_clock_reading (world_after (GetTelemetryId w))))).
Proof.
  rewrite session_lifetime_as_dtor. cbv zeta.
  match goal with
  | |- context [TelemetrySession_dtor ?s ?w1] =>
      destruct (TelemetrySession_dtor_effect s w1) as [Hresult Hworld]
  end.
  rewrite Hworld, Hresult. reflexivity.
Qed.

(** X12. With the remote backend, a lifetime ends with exactly one
    submission to the configured telemetry endpoint under the configured
    username and token; it carries the whole collection in insertion order,
    the Shutdown_Time field included. *)
Theorem lifetime_submits_whole_collection (env : Env) (w : World) :
  ENABLE_WEB_SERVICE (build env) = true ->
  enable_telemetry (values env) = true ->
  network (world_after (session_lifetime env w))
    = network w
      ++ [mkSubmission (telemetry_endpoint_url (values env))
                       (citra_username (values env))
                       (citra_token (values env))
                       (field_collection (result (session_lifetime env w)))].
Proof.
  intros Hweb Hon. rewrite session_lifetime_effect. cbv zeta.
  unfold selected_backend. rewrite Hweb, Hon. cbn [andb].
  rewrite Accept_TelemetryJson. cbn [app].
  destruct (GetTelemetryId_frame w) as (_ & _ & Hnet & _).
  unfold Complete, world_after, after_clock_reading, system_clock_now_ms in *.
  cbn [snd network]. rewrite Hnet. reflexivity.
Qed.

Lemma lifetime_submits_whole_collection_witness :
  let env := some_env true true "v1.0" (Loader.Error 1, "stale") in
  let w := world_with None true true steady_clock in
  map (fun s => (sub_endpoint s, List.length (sub_fields s),
                 last (field_names (sub_fields s)) EmptyString))
      (network (world_after (session_lifetime env w)))
    = [("https://services.citra-emu.org/api/telemetry", 28%nat, "Shutdown_Time")].
Proof.
  intros env w.
  rewrite (lifetime_submits_whole_collection env w); reflexivity.
Defined.

(** X13. With telemetry disabled, or without the web service compiled in,
    a lifetime sends nothing: the remote service has received what it had
    received before. *)
Theorem lifetime_sends_nothing_when_disabled (env : Env) (w : World) :
  enable_telemetry (values env) = false \/ ENABLE_WEB_SERVICE (build env) = false ->
  network (world_after (session_lifetime env w)) = network w.
Proof.
  intros Hoff. rewrite session_lifetime_effect. cbv zeta.
  assert (Hnull : selected_backend env = NullVisitor).
  { unfold selected_backend.
    destruct Hoff as [-> | ->]; [rewrite andb_false_r | rewrite andb_false_l];
      reflexivity. }
  rewrite Hnull, Accept_NullVisitor.
  destruct (GetTelemetryId_frame w) as (_ & _ & Hnet & _).
  unfold Complete, world_after, after_clock_reading, system_clock_now_ms in *.
  cbn [snd network]. exact Hnet.
Qed.

Lemma lifetime_sends_nothing_when_disabled_witness :
  network (world_after (session_lifetime
             (some_env true false "v1.0" (Loader.Success, "Title"))
             (world_with None true true steady_clock))) = [].
Proof.
  apply (lifetime_sends_nothing_when_disabled
           (some_env true false "v1.0" (Loader.Success, "Title"))
           (world_with None true true steady_clock)).
  left. reflexivity.
Defined.

(** X14. The destructor, on any session, only appends: the collection it
    leaves is the one it found followed by a Session field Shutdown_Time
    holding the next clock reading. It releases the backend, reads the clock
    once and touches neither the disk nor the error log. *)
Theorem teardown_appends_and_releases (self : TelemetrySession) (w : World) :
  let closed := result (TelemetrySession_dtor self w) in
  let w' := world_after (TelemetrySession_dtor self w) in
  field_collection closed
    = field_collection self
      ++ [mkField Session "Shutdown_Time" (VS64 (system_clock w (clock_reads w)))] /\
  backend closed = None /\
  clock_reads w' = S (clock_reads w) /\
  disk w' = disk w /\
  error_log w' = error_log w.
Proof.
  cbv zeta.
  destruct (TelemetrySession_dtor_effect self w) as [Hresult Hworld].
  rewrite Hresult, Hworld. cbn [field_collection backend].
  split; [reflexivity|]. split; [reflexivity|].
  destruct (backend self) as [b|].
  - destruct (Complete_touches_network_only
                (Accept (field_collection self
                         ++ [mkField Session "Shutdown_Time"
                                     (VS64 (system_clock w (clock_reads w)))]) b)
                (after_clock_reading w))
      as (Hdisk & Hlog & Hreads & _).
    rewrite Hdisk, Hlog, Hreads. repeat split.
  - repeat split.
Qed.

(** X15. A session reaches the disk and the error log only through
    [GetTelemetryId]: after a whole lifetime both are as that one call left
    them and the clock was read twice. In particular an identifier file that
    exists is never changed by a session. *)
Theorem session_keeps_identifier_file (env : Env) (w : World) :
  let w' := world_after (session_lifetime env w) in
  disk w' = disk (world_after (GetTelemetryId w)) /\
  error_log w' = error_log (world_after (GetTelemetryId w)) /\
  clock_reads w' = S (S (clock_reads w)) /\
  (forall content : list byte,
     telemetry_id_file (disk w) = Some content -> disk w' = disk w).
Proof.
  cbv zeta. rewrite session_lifetime_effect. cbv zeta.
  match goal with
  | |- context [Complete ?b ?w1] =>
      destruct (Complete_touches_network_only b w1) as (Hdisk & Hlog & Hreads & _)
  end.
  rewrite Hdisk, Hlog, Hreads.
  destruct (GetTelemetryId_frame w) as (Hclock & _).
  unfold after_clock_reading, system_clock_now_ms, world_after in *.
  cbn [snd disk error_log clock_reads]. rewrite Hclock.
  repeat split.
  intros content Hfile.
  destruct (read_open_granted (disk w)) eqn:Hopen.
  - rewrite (GetTelemetryId_read w content Hfile Hopen). reflexivity.
  - rewrite (GetTelemetryId_read_refused w content Hfile Hopen). reflexivity.
Qed.

Lemma session_keeps_identifier_file_witness :
  let env := some_env true true "v1.0" (Loader.Success, "Title") in
  let w := world_with (Some ten_bytes) false true steady_clock in
  disk (world_after (session_lifetime env w)) = disk w.
Proof.
  intros env w.
  destruct (session_keeps_identifier_file env w) as (_ & _ & _ & Hkept).
  apply (Hkept ten_bytes). reflexivity.
Defined.
